(** * gps_kf: the GPS odometry node (src/gps_odom_old.cpp)

    A shallow embedding of the node's constructor, its per-message callback
    [gpsOdom::gpsCallback], [gpsOdom::PublishTransform] and [main], followed
    by the properties of the fusion and publication pipeline.

    Conventions of the embedding:
    - a C++ [double] is a primitive binary64 float ([PrimFloat.float]);
      arithmetic is written with the association the C++ expression has;
    - ROS messages are records, a freshly declared message holds the zero
      values its generated constructor gives it;
    - the function-local [static] variables of the callback live in a store of
      their own ([Statics]), one per process, apart from the fields of the
      node object ([gpsOdom]);
    - calls on the filter and on the publishers are recorded, in program
      order, in a list of [Event]s;
    - logging ([ROS_INFO], [ROS_ERROR]) is left out. *)

From Stdlib Require Import ZArith Floats Uint63.
From stdpp Require Import gmap strings list.

Set Warnings "-inexact-float".

(* ===================================================================== *)
(** * Scalars                                                             *)
(* ===================================================================== *)

Module Double.

(** [static_cast<double>] of a 32-bit signed integer (exact). *)
Definition of_Z (z : Z) : float :=
  if (z <? 0)%Z
  then PrimFloat.opp (PrimFloat.of_uint63 (Uint63.of_Z (- z)))
  else PrimFloat.of_uint63 (Uint63.of_Z z).

(** [x > y] on doubles: false as soon as one side is NaN. *)
Definition gt (x y : float) : bool := PrimFloat.ltb y x.

(** Eigen's [array().square()] on one coefficient. *)
Definition square (x : float) : float := (x * x)%float.

End Double.

(* ===================================================================== *)
(** * ros::Time and ros::Duration                                         *)
(* ===================================================================== *)

(** roscpp's time types. [Time] holds unsigned seconds and nanoseconds,
    [Duration] signed ones. The difference of two stamps is the normalised
    duration of their nanosecond counts (seconds rounded down, nanoseconds in
    [0, 10^9)); it is written out for stamps whose difference fits the
    duration's 32-bit range. *)
Module Time.
Record t := mk { sec : Z; nsec : Z }.
Definition toNSec (a : t) : Z := (sec a * 1000000000 + nsec a)%Z.
End Time.

Module Duration.
Record t := mk { sec : Z; nsec : Z }.
Definition fromNSec (n : Z) : t :=
  {| sec := (n / 1000000000)%Z; nsec := (n mod 1000000000)%Z |}.
Definition toSec (d : t) : float :=
  (Double.of_Z (sec d) + 1e-9 * Double.of_Z (nsec d))%float.
End Duration.

(** [a - b] on [ros::Time]. *)
Definition Time_sub (a b : Time.t) : Duration.t :=
  Duration.fromNSec (Time.toNSec a - Time.toNSec b).

(* ===================================================================== *)
(** * Messages                                                            *)
(* ===================================================================== *)

Module Header.
Record t := mk { seq : Z; stamp : Time.t; frame_id : string }.
Definition default : t := mk 0 (Time.mk 0 0) "".
Definition set_frame_id (v : string) (h : t) : t := mk (seq h) (stamp h) v.
End Header.

Module Point.
Record t := mk { x : float; y : float; z : float }.
Definition default : t := mk 0 0 0.
Definition set_x (v : float) (p : t) : t := mk v (y p) (z p).
Definition set_y (v : float) (p : t) : t := mk (x p) v (z p).
Definition set_z (v : float) (p : t) : t := mk (x p) (y p) v.
End Point.

Module Vector3.
Record t := mk { x : float; y : float; z : float }.
Definition default : t := mk 0 0 0.
Definition set_x (v : float) (p : t) : t := mk v (y p) (z p).
Definition set_y (v : float) (p : t) : t := mk (x p) v (z p).
Definition set_z (v : float) (p : t) : t := mk (x p) (y p) v.
End Vector3.

Module Quaternion.
Record t := mk { x : float; y : float; z : float; w : float }.
Definition default : t := mk 0 0 0 0.
End Quaternion.

Module Pose.
Record t := mk { position : Point.t; orientation : Quaternion.t }.
Definition default : t := mk Point.default Quaternion.default.
Definition upd_position (f : Point.t -> Point.t) (p : t) : t :=
  mk (f (position p)) (orientation p).
Definition set_orientation (q : Quaternion.t) (p : t) : t :=
  mk (position p) q.
End Pose.

Module PoseStamped.
Record t := mk { header : Header.t; pose : Pose.t }.
Definition default : t := mk Header.default Pose.default.
Definition upd_header (f : Header.t -> Header.t) (m : t) : t :=
  mk (f (header m)) (pose m).
Definition upd_pose (f : Pose.t -> Pose.t) (m : t) : t :=
  mk (header m) (f (pose m)).
End PoseStamped.

Module Twist.
Record t := mk { linear : Vector3.t; angular : Vector3.t }.
Definition default : t := mk Vector3.default Vector3.default.
Definition upd_linear (f : Vector3.t -> Vector3.t) (m : t) : t :=
  mk (f (linear m)) (angular m).
Definition upd_angular (f : Vector3.t -> Vector3.t) (m : t) : t :=
  mk (linear m) (f (angular m)).
End Twist.

(** The [float64[36]] covariance arrays are lists of 36 doubles. *)
Module PoseWithCovariance.
Record t := mk { pose : Pose.t; covariance : list float }.
Definition default : t := mk Pose.default (replicate 36 0%float).
Definition upd_pose (f : Pose.t -> Pose.t) (m : t) : t :=
  mk (f (pose m)) (covariance m).
Definition upd_covariance (f : list float -> list float) (m : t) : t :=
  mk (pose m) (f (covariance m)).
End PoseWithCovariance.

Module TwistWithCovariance.
Record t := mk { twist : Twist.t; covariance : list float }.
Definition default : t := mk Twist.default (replicate 36 0%float).
Definition upd_twist (f : Twist.t -> Twist.t) (m : t) : t :=
  mk (f (twist m)) (covariance m).
Definition upd_covariance (f : list float -> list float) (m : t) : t :=
  mk (twist m) (f (covariance m)).
End TwistWithCovariance.

Module Odometry.
Record t := mk {
  header : Header.t;
  child_frame_id : string;
  pose : PoseWithCovariance.t;
  twist : TwistWithCovariance.t }.
Definition default : t :=
  mk Header.default "" PoseWithCovariance.default TwistWithCovariance.default.
Definition set_header (h : Header.t) (m : t) : t :=
  mk h (child_frame_id m) (pose m) (twist m).
Definition set_child_frame_id (s : string) (m : t) : t :=
  mk (header m) s (pose m) (twist m).
Definition upd_pose (f : PoseWithCovariance.t -> PoseWithCovariance.t) (m : t) : t :=
  mk (header m) (child_frame_id m) (f (pose m)) (twist m).
Definition upd_twist (f : TwistWithCovariance.t -> TwistWithCovariance.t) (m : t) : t :=
  mk (header m) (child_frame_id m) (pose m) (f (twist m)).

(** The access paths the callback assigns through. *)
Definition position (m : t) : Point.t :=
  Pose.position (PoseWithCovariance.pose (pose m)).
Definition orientation (m : t) : Quaternion.t :=
  Pose.orientation (PoseWithCovariance.pose (pose m)).
Definition linear (m : t) : Vector3.t :=
  Twist.linear (TwistWithCovariance.twist (twist m)).
Definition angular (m : t) : Vector3.t :=
  Twist.angular (TwistWithCovariance.twist (twist m)).
Definition pose_covariance (m : t) : list float :=
  PoseWithCovariance.covariance (pose m).
Definition twist_covariance (m : t) : list float :=
  TwistWithCovariance.covariance (twist m).

Definition upd_position (f : Point.t -> Point.t) : t -> t :=
  upd_pose (PoseWithCovariance.upd_pose (Pose.upd_position f)).
Definition set_orientation (q : Quaternion.t) : t -> t :=
  upd_pose (PoseWithCovariance.upd_pose (Pose.set_orientation q)).
Definition upd_linear (f : Vector3.t -> Vector3.t) : t -> t :=
  upd_twist (TwistWithCovariance.upd_twist (Twist.upd_linear f)).
Definition upd_angular (f : Vector3.t -> Vector3.t) : t -> t :=
  upd_twist (TwistWithCovariance.upd_twist (Twist.upd_angular f)).
(** [m.pose.covariance[k] = v] and [m.twist.covariance[k] = v]. *)
Definition set_pose_covariance (k : nat) (v : float) : t -> t :=
  upd_pose (PoseWithCovariance.upd_covariance (fun c => <[k := v]> c)).
Definition set_twist_covariance (k : nat) (v : float) : t -> t :=
  upd_twist (TwistWithCovariance.upd_covariance (fun c => <[k := v]> c)).
End Odometry.

Module Transform.
Record t := mk { translation : Vector3.t; rotation : Quaternion.t }.
End Transform.

Module TransformStamped.
Record t := mk {
  header : Header.t;
  child_frame_id : string;
  transform : Transform.t }.
End TransformStamped.

(* ===================================================================== *)
(** * Eigen                                                               *)
(* ===================================================================== *)

(** [Eigen::Matrix3d], by coefficients. *)
Module Matrix3d.
Record t := mk {
  c00 : float; c01 : float; c02 : float;
  c10 : float; c11 : float; c12 : float;
  c20 : float; c21 : float; c22 : float }.

Definition Identity : t := mk 1 0 0  0 1 0  0 0 1.

(** [A - B], coefficient by coefficient. *)
Definition sub (a b : t) : t :=
  mk (c00 a - c00 b) (c01 a - c01 b) (c02 a - c02 b)
     (c10 a - c10 b) (c11 a - c11 b) (c12 a - c12 b)
     (c20 a - c20 b) (c21 a - c21 b) (c22 a - c22 b).

(** [A / s], coefficient by coefficient. *)
Definition div (a : t) (s : float) : t :=
  mk (c00 a / s) (c01 a / s) (c02 a / s)
     (c10 a / s) (c11 a / s) (c12 a / s)
     (c20 a / s) (c21 a / s) (c22 a / s).

Definition transpose (a : t) : t :=
  mk (c00 a) (c10 a) (c20 a)
     (c01 a) (c11 a) (c21 a)
     (c02 a) (c12 a) (c22 a).

(** One coefficient of a product: a row against a column. *)
Definition dot3 (a0 a1 a2 b0 b1 b2 : float) : float :=
  (a0 * b0 + a1 * b1 + a2 * b2)%float.

Definition mul (a b : t) : t :=
  mk (dot3 (c00 a) (c01 a) (c02 a) (c00 b) (c10 b) (c20 b))
     (dot3 (c00 a) (c01 a) (c02 a) (c01 b) (c11 b) (c21 b))
     (dot3 (c00 a) (c01 a) (c02 a) (c02 b) (c12 b) (c22 b))
     (dot3 (c10 a) (c11 a) (c12 a) (c00 b) (c10 b) (c20 b))
     (dot3 (c10 a) (c11 a) (c12 a) (c01 b) (c11 b) (c21 b))
     (dot3 (c10 a) (c11 a) (c12 a) (c02 b) (c12 b) (c22 b))
     (dot3 (c20 a) (c21 a) (c22 a) (c00 b) (c10 b) (c20 b))
     (dot3 (c20 a) (c21 a) (c22 a) (c01 b) (c11 b) (c21 b))
     (dot3 (c20 a) (c21 a) (c22 a) (c02 b) (c12 b) (c22 b)).
End Matrix3d.

(** [Eigen::Quaterniond], constructed from [(w, x, y, z)]. *)
Module Quaterniond.
Record t := mk { w : float; x : float; y : float; z : float }.

(** The conversion [Matrix3d(Quaterniond)] (Eigen's [toRotationMatrix]). *)
Definition toRotationMatrix (q : t) : Matrix3d.t :=
  let tx := (2 * x q)%float in
  let ty := (2 * y q)%float in
  let tz := (2 * z q)%float in
  let twx := (tx * w q)%float in
  let twy := (ty * w q)%float in
  let twz := (tz * w q)%float in
  let txx := (tx * x q)%float in
  let txy := (ty * x q)%float in
  let txz := (tz * x q)%float in
  let tyy := (ty * y q)%float in
  let tyz := (tz * y q)%float in
  let tzz := (tz * z q)%float in
  Matrix3d.mk
    (1 - (tyy + tzz)) (txy - twz) (txz + twy)
    (txy + twz) (1 - (txx + tzz)) (tyz - twx)
    (txz - twy) (tyz + twx) (1 - (txx + tyy)).
End Quaterniond.

(** Dynamic-looking Eigen vectors and matrices of the filter's interface:
    [State_t] (6 x 1), [Measurement_t] (3 x 1), [ProcessCov_t] (6 x 6) and the
    3 x 3 measurement covariance, as lists (of rows). *)
Definition State_t : Type := list float.
Definition Measurement_t : Type := list float.
Definition ProcessCov_t : Type := list (list float).
Definition MeasurementCov_t : Type := list (list float).

(** [v(i)] and [m(i, j)]; the code only reads inside the bounds. *)
Definition coeff (v : list float) (i : nat) : float := default 0%float (v !! i).
Definition coeff2 (m : list (list float)) (i j : nat) : float :=
  default 0%float (m !! i ≫= fun row => row !! j).

(** [v.asDiagonal()]: the square matrix with [v] on its diagonal. *)
Definition asDiagonal (v : list float) : list (list float) :=
  imap (fun i _ => imap (fun j vj => if Nat.eqb i j then vj else 0%float) v) v.

(** [s * Matrix<double, n, n>::Identity()]. *)
Definition scaledIdentity (s : float) (n : nat) : list (list float) :=
  (fun i => (fun j => (s * (if Nat.eqb i j then 1 else 0))%float) <$> seq 0 n)
    <$> seq 0 n.

(* ===================================================================== *)
(** * The filter                                                          *)
(* ===================================================================== *)

(** Modelled from the spec: the [KalmanFilter] class behind the member [kf_]
    is declared through gps_odom.hpp and is not part of src/. The spec gives
    it as an opaque component with the operations initialize, time-update,
    measurement-update, read-state and read-covariance; the node is verified
    against any implementation of that interface. [kf_default] is the
    default-constructed filter the node holds before [initialize]. *)
Class KalmanFilter (KF : Type) : Type := {
  kf_default : KF;
  initialize : State_t -> ProcessCov_t -> ProcessCov_t -> MeasurementCov_t -> KF -> KF;
  processUpdate : float -> KF -> KF;
  measurementUpdate : Measurement_t -> float -> KF -> KF;
  getState : KF -> State_t;
  getProcessNoise : KF -> ProcessCov_t }.

(* ===================================================================== *)
(** * The node                                                            *)
(* ===================================================================== *)

(** What the node does to its collaborators, in program order: the two
    mutating calls on the filter and the four sinks. *)
Inductive Event : Type :=
| KfProcessUpdate (dt : float)
| KfMeasurementUpdate (meas : Measurement_t) (dt : float)
| PublishOdom (m : Odometry.t)
| SendTransform (m : TransformStamped.t)
| PublishLocalOdom (m : Odometry.t)
| PublishMocap (m : PoseStamped.t).

(** The [static] locals of [gpsCallback]. A static local is created the first
    time control passes its declaration ([None] before that) and there is one
    of each in the process, whatever the number of [gpsOdom] objects. *)
Record Statics : Type := mkStatics {
  t_last_proc : option Time.t;
  t_last_meas : option Time.t;
  R_prev : option Matrix3d.t }.

Definition Statics_initial : Statics := mkStatics None None None.

(** The ROS parameter server, by full parameter name. *)
Inductive XmlRpcValue : Type :=
| XBool (b : bool)
| XInt (i : Z)
| XDouble (d : float)
| XString (s : string).

(** [nh.param(key, var, default)]: the stored value when there is one of the
    requested type (an integer is accepted where a double is asked for), the
    default otherwise. *)
Definition param_double (ps : gmap string XmlRpcValue) (key : string) (dflt : float) : float :=
  match ps !! key with
  | Some (XDouble d) => d
  | Some (XInt i) => Double.of_Z i
  | _ => dflt
  end.

Definition param_bool (ps : gmap string XmlRpcValue) (key : string) (dflt : bool) : bool :=
  match ps !! key with
  | Some (XBool b) => b
  | _ => dflt
  end.

Definition param_string (ps : gmap string XmlRpcValue) (key : string) (dflt : string) : string :=
  match ps !! key with
  | Some (XString s) => s
  | _ => dflt
  end.

(** [std::string::empty]. *)
Definition empty (s : string) : bool :=
  match s with
  | EmptyString => true
  | String _ _ => false
  end.

Section Node.

Context {KF : Type} `{KalmanFilter KF}.

(** The data members of [gpsOdom] the code reads back. The publishers, the
    subscriber and the transform broadcaster are sinks: see [Event]. *)
Record gpsOdom : Type := mkGpsOdom {
  kf_ : KF;
  initPose_ : PoseStamped.t;
  publish_tf_ : bool;
  child_frame_id_ : string }.

Definition set_kf_ (k : KF) (n : gpsOdom) : gpsOdom :=
  mkGpsOdom k (initPose_ n) (publish_tf_ n) (child_frame_id_ n).

(** ** Constructor *)

(** How [gpsOdom::gpsOdom] ends: with a node, by throwing
    [std::runtime_error], or in a failed [ROS_ASSERT] (assertions compiled
    in). *)
Inductive Construction : Type :=
| Constructed (node : gpsOdom)
| Thrown (what : string)
| AssertionFailed.

(** [dt = 1.0 / gps_fps] and the six entries of [proc_noise_diag] as the
    constructor assigns them, before and after [array().square()]. *)
Definition proc_noise_diag (max_accel gps_fps : float) : State_t :=
  let dt := (1.0 / gps_fps)%float in
  let d : State_t :=
    [ (0.5 * max_accel * dt * dt)%float;
      (0.5 * max_accel * dt * dt)%float;
      (0.5 * max_accel * dt * dt)%float;
      (max_accel * dt)%float;
      (max_accel * dt)%float;
      (max_accel * dt)%float ] in
  Double.square <$> d.

Definition meas_noise_diag : Measurement_t :=
  let d : Measurement_t := [ 1e-2%float; 1e-2%float; 1e-2%float ] in
  Double.square <$> d.

(** [gpsOdom::gpsOdom(nh)], where [quadName] is the node's name, [ps] the
    parameter server and [first] the message [waitForMessage] returns on the
    configured pose topic. The check on the child frame comes before the one
    on the rate; the advertised topics and the subscription appear as the
    sinks of [Event] and as the messages given to [spin]. *)
Definition gpsOdom_new (quadName : string) (ps : gmap string XmlRpcValue)
    (first : PoseStamped.t) : Construction :=
  let initPose := first in
  let max_accel := param_double ps (quadName +:+ "/max_accel") 5.0%float in
  let publish_tf := param_bool ps (quadName +:+ "/publish_tf") true in
  let child_frame_id := param_string ps (quadName +:+ "/child_frame_id") "base_link" in
  if publish_tf && empty child_frame_id
  then Thrown "gps_odom: child_frame_id required for publishing tf"
  else
    let gps_fps := param_double ps (quadName +:+ "/gps_fps") 20.0%float in
    if negb (Double.gt gps_fps 0.0)
    then AssertionFailed
    else
      let initStates : State_t :=
        [ Point.x (Pose.position (PoseStamped.pose initPose));
          Point.y (Pose.position (PoseStamped.pose initPose));
          Point.z (Pose.position (PoseStamped.pose initPose));
          0.0%float; 0.0%float; 0.0%float ] in
      let kf :=
        initialize initStates
                   (scaledIdentity 1.0 6)
                   (asDiagonal (proc_noise_diag max_accel gps_fps))
                   (asDiagonal meas_noise_diag)
                   kf_default in
      Constructed (mkGpsOdom kf initPose publish_tf child_frame_id).

(** ** The callback monad

    A member function runs on the process's statics and on [this]; it
    returns a value, the two updated, and the events it caused. *)
Record World : Type := mkWorld { statics : Statics; self : gpsOdom }.

Definition M (A : Type) : Type := World -> A * World * list Event.

#[local] Instance M_ret : MRet M := fun A a w => (a, w, []).
#[local] Instance M_bind : MBind M := fun A B f m w =>
  let '(a, w1, e1) := m w in
  let '(b, w2, e2) := f a w1 in
  (b, w2, e1 ++ e2).

Definition emit (e : Event) : M unit := fun w => (tt, w, [e]).

Definition member {A} (f : gpsOdom -> A) : M A := fun w => (f (self w), w, []).

(** [static T x = init;]: creates [x] on the first pass, and gives the value
    [x] holds after the declaration. *)
Definition static_t_last_proc (init : Time.t) : M Time.t := fun w =>
  let s := statics w in
  match t_last_proc s with
  | Some v => (v, w, [])
  | None => (init, mkWorld (mkStatics (Some init) (t_last_meas s) (R_prev s)) (self w), [])
  end.

Definition static_t_last_meas (init : Time.t) : M Time.t := fun w =>
  let s := statics w in
  match t_last_meas s with
  | Some v => (v, w, [])
  | None => (init, mkWorld (mkStatics (t_last_proc s) (Some init) (R_prev s)) (self w), [])
  end.

Definition static_R_prev (init : Matrix3d.t) : M Matrix3d.t := fun w =>
  let s := statics w in
  match R_prev s with
  | Some v => (v, w, [])
  | None => (init, mkWorld (mkStatics (t_last_proc s) (t_last_meas s) (Some init)) (self w), [])
  end.

(** [x = v;] on a static. *)
Definition assign_t_last_proc (v : Time.t) : M unit := fun w =>
  let s := statics w in
  (tt, mkWorld (mkStatics (Some v) (t_last_meas s) (R_prev s)) (self w), []).

Definition assign_t_last_meas (v : Time.t) : M unit := fun w =>
  let s := statics w in
  (tt, mkWorld (mkStatics (t_last_proc s) (Some v) (R_prev s)) (self w), []).

Definition assign_R_prev (v : Matrix3d.t) : M unit := fun w =>
  let s := statics w in
  (tt, mkWorld (mkStatics (t_last_proc s) (t_last_meas s) (Some v)) (self w), []).

(** Calls on the member [kf_]. *)
Definition kf_processUpdate (dt : float) : M unit := fun w =>
  (tt, mkWorld (statics w) (set_kf_ (processUpdate dt (kf_ (self w))) (self w)),
   [KfProcessUpdate dt]).

Definition kf_measurementUpdate (meas : Measurement_t) (dt : float) : M unit := fun w =>
  (tt, mkWorld (statics w) (set_kf_ (measurementUpdate meas dt (kf_ (self w))) (self w)),
   [KfMeasurementUpdate meas dt]).

Definition kf_getState : M State_t := member (fun n => getState (kf_ n)).
Definition kf_getProcessNoise : M ProcessCov_t := member (fun n => getProcessNoise (kf_ n)).

(** ** gpsOdom::PublishTransform *)
Definition PublishTransform (pose : Pose.t) (header : Header.t)
    (child_frame_id : string) : M unit :=
  let translation :=
    Vector3.mk (Point.x (Pose.position pose))
               (Point.y (Pose.position pose))
               (Point.z (Pose.position pose)) in
  let transform_stamped :=
    TransformStamped.mk header child_frame_id
      (Transform.mk translation (Pose.orientation pose)) in
  emit (SendTransform transform_stamped).

(** ** gpsOdom::gpsCallback *)

(** The two nested loops that fill the covariance arrays. *)
Definition fill_covariance (proc_noise : ProcessCov_t) (odom_msg : Odometry.t) : Odometry.t :=
  foldl (fun om i =>
    foldl (fun om j =>
      let om := Odometry.set_pose_covariance (6 * i + j) (coeff2 proc_noise i j) om in
      Odometry.set_twist_covariance (6 * i + j) (coeff2 proc_noise (3 + i) (3 + j)) om)
    om (seq 0 3))
  odom_msg (seq 0 3).

(** The body of the callback, with the local constant
    [hypothesis_test_threshold] taken as an argument. *)
Definition gpsCallback_body (hypothesis_test_threshold : float) (msg : PoseStamped.t) : M unit :=
  let stamp := Header.stamp (PoseStamped.header msg) in
  let position := Pose.position (PoseStamped.pose msg) in
  let orientation := Pose.orientation (PoseStamped.pose msg) in
  last_proc ← static_t_last_proc stamp;
  let dt := Duration.toSec (Time_sub stamp last_proc) in
  assign_t_last_proc stamp;;
  (* Kalman filter for getting translational velocity from position measurements *)
  kf_processUpdate dt;;
  let meas : Measurement_t := [ Point.x position; Point.y position; Point.z position ] in
  proc_noise_apriori ← kf_getProcessNoise;
  xbar ← kf_getState;
  last_meas ← static_t_last_meas stamp;
  let meas_dt := Duration.toSec (Time_sub stamp last_meas) in
  assign_t_last_meas stamp;;
  kf_measurementUpdate meas meas_dt;;
  state ← kf_getState;
  proc_noise ← kf_getProcessNoise;
  let odom_msg := Odometry.default in
  let odom_msg := Odometry.set_header (PoseStamped.header msg) odom_msg in
  let odom_msg := Odometry.set_child_frame_id (Header.frame_id (PoseStamped.header msg)) odom_msg in
  let odom_msg := Odometry.upd_position (Point.set_x (coeff state 0)) odom_msg in
  let odom_msg := Odometry.upd_position (Point.set_y (coeff state 1)) odom_msg in
  let odom_msg := Odometry.upd_position (Point.set_z (coeff state 2)) odom_msg in
  let odom_msg := Odometry.upd_linear (Vector3.set_x (coeff state 3)) odom_msg in
  let odom_msg := Odometry.upd_linear (Vector3.set_y (coeff state 4)) odom_msg in
  let odom_msg := Odometry.upd_linear (Vector3.set_z (coeff state 5)) odom_msg in
  let odom_msg := fill_covariance proc_noise odom_msg in
  let odom_msg := Odometry.set_orientation orientation odom_msg in
  (* Single step differentiation for angular velocity *)
  R_last ← static_R_prev Matrix3d.Identity;
  let R := Quaterniond.toRotationMatrix
             (Quaterniond.mk (Quaternion.w orientation) (Quaternion.x orientation)
                             (Quaternion.y orientation) (Quaternion.z orientation)) in
  let odom_msg :=
    if Double.gt dt 1e-6
    then
      let R_dot := Matrix3d.div (Matrix3d.sub R R_last) dt in
      let w_hat := Matrix3d.mul R_dot (Matrix3d.transpose R) in
      let odom_msg := Odometry.upd_angular (Vector3.set_x (Matrix3d.c21 w_hat)) odom_msg in
      let odom_msg := Odometry.upd_angular (Vector3.set_y (Matrix3d.c02 w_hat)) odom_msg in
      Odometry.upd_angular (Vector3.set_z (Matrix3d.c10 w_hat)) odom_msg
    else odom_msg in
  assign_R_prev R;;
  emit (PublishOdom odom_msg);;
  (* Publish tf *)
  publish_tf ← member publish_tf_;
  child_frame_id ← member child_frame_id_;
  (if (publish_tf : bool)
   then PublishTransform (PoseWithCovariance.pose (Odometry.pose odom_msg))
                         (Odometry.header odom_msg) child_frame_id
   else mret tt);;
  (* Publish local odometry message *)
  initPose ← member initPose_;
  let init_position := Pose.position (PoseStamped.pose initPose) in
  let localOdom_msg := odom_msg in
  let localOdom_msg :=
    Odometry.upd_position
      (Point.set_x (Point.x (Odometry.position localOdom_msg) - Point.x init_position))
      localOdom_msg in
  let localOdom_msg :=
    Odometry.upd_position
      (Point.set_y (Point.y (Odometry.position localOdom_msg) - Point.y init_position))
      localOdom_msg in
  let localOdom_msg :=
    Odometry.upd_position
      (Point.set_z (Point.z (Odometry.position localOdom_msg) - Point.z init_position))
      localOdom_msg in
  emit (PublishLocalOdom localOdom_msg);;
  (* Publish message for px4 mocap topic *)
  let mocap_msg := PoseStamped.default in
  let mocap_msg := PoseStamped.upd_pose (Pose.upd_position (Point.set_x (Point.x position))) mocap_msg in
  let mocap_msg := PoseStamped.upd_pose (Pose.upd_position (Point.set_y (Point.y position))) mocap_msg in
  let mocap_msg := PoseStamped.upd_pose (Pose.upd_position (Point.set_z (Point.z position))) mocap_msg in
  let mocap_msg := PoseStamped.upd_pose (Pose.set_orientation orientation) mocap_msg in
  let mocap_msg := PoseStamped.upd_header (fun _ => PoseStamped.header msg) mocap_msg in
  let mocap_msg := PoseStamped.upd_header (Header.set_frame_id "fcu") mocap_msg in
  emit (PublishMocap mocap_msg).

(** [const double hypothesis_test_threshold = 0.5;] *)
Definition gpsCallback (msg : PoseStamped.t) : M unit :=
  gpsCallback_body 0.5%float msg.

End Node.

Arguments gpsOdom KF : clear implicits.
Arguments World KF : clear implicits.
Arguments Construction KF : clear implicits.

(* ===================================================================== *)
(** * Running the node                                                    *)
(* ===================================================================== *)

Section Run.

Context {KF : Type} `{KalmanFilter KF}.

(** One callback: the world it leaves and the events it caused. *)
Definition cycle (msg : PoseStamped.t) (w : World KF) : World KF * list Event :=
  let '(_, w', ev) := gpsCallback msg w in (w', ev).

(** [ros::spin()] over the messages the subscription delivers, one callback
    after the other; the events are kept per callback. *)
Fixpoint spin (msgs : list PoseStamped.t) (w : World KF) : World KF * list (list Event) :=
  match msgs with
  | [] => (w, [])
  | msg :: rest =>
      let '(w1, ev) := cycle msg w in
      let '(w2, evs) := spin rest w1 in
      (w2, ev :: evs)
  end.

(** How the process ends: [main] returns a code, or a failed [ROS_ASSERT]
    stops it. *)
Inductive Termination : Type :=
| Exit (code : Z)
| Aborted.

(** [main]: construct the node and spin inside [try]; an exception leads to
    [return 1], the end of [ros::spin()] to [return 0]. *)
Definition main (quadName : string) (ps : gmap string XmlRpcValue)
    (first : PoseStamped.t) (msgs : list PoseStamped.t) : Termination * list (list Event) :=
  match gpsOdom_new quadName ps first with
  | Thrown _ => (Exit 1, [])
  | AssertionFailed => (Aborted, [])
  | Constructed gps_odom =>
      let '(_, evs) := spin msgs (mkWorld Statics_initial gps_odom) in
      (Exit 0, evs)
  end.

(** ** Several nodes in one process

    The statics belong to the function, not to the object: a process that
    holds several [gpsOdom] objects has one [Statics] for all of them. *)
Record Process : Type := mkProcess {
  p_statics : Statics;
  p_nodes : list (gpsOdom KF) }.

(** The callback of the [i]-th node runs on [msg]. *)
Definition deliver (i : nat) (msg : PoseStamped.t) (p : Process) : Process * list Event :=
  match p_nodes p !! i with
  | None => (p, [])
  | Some node =>
      let '(w, ev) := cycle msg (mkWorld (p_statics p) node) in
      (mkProcess (statics w) (<[i := self w]> (p_nodes p)), ev)
  end.

(** A schedule is the order in which the messages of all the streams reach
    their nodes; the result keeps, per delivery, the node and its events. *)
Fixpoint run (sched : list (nat * PoseStamped.t)) (p : Process)
    : Process * list (nat * list Event) :=
  match sched with
  | [] => (p, [])
  | (i, msg) :: rest =>
      let '(p1, ev) := deliver i msg p in
      let '(p2, evs) := run rest p1 in
      (p2, (i, ev) :: evs)
  end.

(** What node [i] put out during a run. *)
Definition outputs_of (i : nat) (tr : list (nat * list Event)) : list (list Event) :=
  snd <$> filter (fun e => fst e = i) tr.

End Run.

Arguments Process KF : clear implicits.

(** ** Reading a callback's events *)

Definition process_updates (ev : list Event) : list float :=
  omap (fun e => match e with KfProcessUpdate dt => Some dt | _ => None end) ev.

Definition measurement_updates (ev : list Event) : list (Measurement_t * float) :=
  omap (fun e => match e with KfMeasurementUpdate m dt => Some (m, dt) | _ => None end) ev.

Definition odom_published (ev : list Event) : list Odometry.t :=
  omap (fun e => match e with PublishOdom m => Some m | _ => None end) ev.

Definition localOdom_published (ev : list Event) : list Odometry.t :=
  omap (fun e => match e with PublishLocalOdom m => Some m | _ => None end) ev.

Definition mocap_published (ev : list Event) : list PoseStamped.t :=
  omap (fun e => match e with PublishMocap m => Some m | _ => None end) ev.

Definition transforms_sent (ev : list Event) : list TransformStamped.t :=
  omap (fun e => match e with SendTransform m => Some m | _ => None end) ev.

(** The angular velocities a run reported on the global odometry topic. *)
Definition angular_reported (evs : list (list Event)) : list Vector3.t :=
  Odometry.angular <$> concat (odom_published <$> evs).

(** [dt_proc] of a callback that starts on statics [s]: the time since the
    stored process stamp, which the declaration seeds with the message's own
    stamp on the first pass. *)
Definition dt_proc (s : Statics) (msg : PoseStamped.t) : float :=
  let stamp := Header.stamp (PoseStamped.header msg) in
  Duration.toSec (Time_sub stamp (default stamp (t_last_proc s))).

(** The rotation matrix of a message's orientation. *)
Definition rotation_of (msg : PoseStamped.t) : Matrix3d.t :=
  let q := Pose.orientation (PoseStamped.pose msg) in
  Quaterniond.toRotationMatrix
    (Quaterniond.mk (Quaternion.w q) (Quaternion.x q) (Quaternion.y q) (Quaternion.z q)).

(** The position of a message as the filter's measurement vector. *)
Definition measurement_of (msg : PoseStamped.t) : Measurement_t :=
  let p := Pose.position (PoseStamped.pose msg) in
  [ Point.x p; Point.y p; Point.z p ].

(* ===================================================================== *)
(** * A filter to run the node on                                         *)
(* ===================================================================== *)

(** A small implementation of the interface, used to evaluate the node on
    concrete messages: the prediction moves the position along the velocity,
    the correction takes the measured position and leaves the covariance. *)
Module DeadReckoning.

Record t := mk { x : State_t; P : ProcessCov_t }.

Definition predict (dt : float) (k : t) : t :=
  mk [ (coeff (x k) 0 + dt * coeff (x k) 3)%float;
       (coeff (x k) 1 + dt * coeff (x k) 4)%float;
       (coeff (x k) 2 + dt * coeff (x k) 5)%float;
       coeff (x k) 3; coeff (x k) 4; coeff (x k) 5 ]
     (P k).

Definition correct (meas : Measurement_t) (dt : float) (k : t) : t :=
  mk [ coeff meas 0; coeff meas 1; coeff meas 2;
       coeff (x k) 3; coeff (x k) 4; coeff (x k) 5 ]
     (P k).

#[global] Instance filter : KalmanFilter t := {|
  kf_default := mk [] [];
  initialize := fun x0 P0 _ _ _ => mk x0 P0;
  processUpdate := predict;
  measurementUpdate := correct;
  getState := x;
  getProcessNoise := P |}.

End DeadReckoning.

(** A second implementation, which also keeps the two noise matrices
    [initialize] was given, so that a run of the constructor shows them. *)
Module NoiseKeeping.

Record t := mk {
  x : State_t;
  P : ProcessCov_t;
  Q : ProcessCov_t;
  R : MeasurementCov_t }.

#[global] Instance filter : KalmanFilter t := {|
  kf_default := mk [] [] [] [];
  initialize := fun x0 P0 Q0 R0 _ => mk x0 P0 Q0 R0;
  processUpdate := fun dt k =>
    mk [ (coeff (x k) 0 + dt * coeff (x k) 3)%float;
         (coeff (x k) 1 + dt * coeff (x k) 4)%float;
         (coeff (x k) 2 + dt * coeff (x k) 5)%float;
         coeff (x k) 3; coeff (x k) 4; coeff (x k) 5 ]
       (P k) (Q k) (R k);
  measurementUpdate := fun meas dt k =>
    mk [ coeff meas 0; coeff meas 1; coeff meas 2;
         coeff (x k) 3; coeff (x k) 4; coeff (x k) 5 ]
       (P k) (Q k) (R k);
  getState := x;
  getProcessNoise := P |}.

End NoiseKeeping.

(** ** Sample inputs *)

Module Sample.

Definition q_identity : Quaternion.t := Quaternion.mk 0 0 0 1.
(** A quarter turn about the vertical axis. *)
Definition q_yaw90 : Quaternion.t :=
  Quaternion.mk 0 0 0.70710678118654757%float 0.70710678118654757%float.

Definition msg (sec : Z) (px : float) (q : Quaternion.t) : PoseStamped.t :=
  PoseStamped.mk (Header.mk 0 (Time.mk sec 0) "world")
                 (Pose.mk (Point.mk px 0 0) q).

(** Three messages of one stream: the third repeats the stamp of the second. *)
Definition m0 : PoseStamped.t := msg 0 0 q_identity.
Definition m1 : PoseStamped.t := msg 1 1 q_yaw90.
Definition m2 : PoseStamped.t := msg 1 1 q_yaw90.
(** A message of another stream, stamped like [m1]. *)
Definition other : PoseStamped.t := msg 1 7 q_identity.

Definition quadName : string := "/gps_odom".

(** A parameter server that asks for the transform and names no child frame. *)
Definition ps_tf_only : gmap string XmlRpcValue :=
  {[ "/gps_odom/publish_tf" := XBool true ]}.
(** One that sets the child frame to the empty string. *)
Definition ps_empty_child : gmap string XmlRpcValue :=
  {[ "/gps_odom/child_frame_id" := XString "" ]}.
(** One that sets the maximum acceleration to 2 and the rate to 4 Hz. *)
Definition ps_noise : gmap string XmlRpcValue :=
  {[ "/gps_odom/max_accel" := XDouble 2; "/gps_odom/gps_fps" := XDouble 4 ]}.

Definition cov6 : ProcessCov_t :=
  (fun i => (fun j => Double.of_Z (Z.of_nat (10 * i + j))) <$> seq 0 6) <$> seq 0 6.

Definition node : gpsOdom DeadReckoning.t :=
  mkGpsOdom (DeadReckoning.mk [0; 0; 0; 0; 0; 0]%float cov6) m0 true "base_link".

Definition node' : gpsOdom DeadReckoning.t :=
  mkGpsOdom (DeadReckoning.mk [5; 5; 5; 1; 1; 1]%float cov6) other false "".

Definition world : World DeadReckoning.t := mkWorld Statics_initial node.

(** The world after [m0], and after [m0] and [m1]. *)
Definition world1 : World DeadReckoning.t := fst (cycle m0 world).
Definition world2 : World DeadReckoning.t := fst (cycle m1 world1).

(** The node the constructor builds from an empty parameter server. *)
Definition default_node : gpsOdom DeadReckoning.t :=
  mkGpsOdom (DeadReckoning.mk [0; 0; 0; 0; 0; 0]%float (scaledIdentity 1 6))
            m0 true "base_link".

End Sample.

(** [dt_meas] of a callback that starts on statics [s], from the stored
    measurement stamp. *)
Definition dt_meas (s : Statics) (msg : PoseStamped.t) : float :=
  let stamp := Header.stamp (PoseStamped.header msg) in
  Duration.toSec (Time_sub stamp (default stamp (t_last_meas s))).

(** The statics a callback on [msg] leaves behind. *)
Definition statics_after (msg : PoseStamped.t) : Statics :=
  let stamp := Header.stamp (PoseStamped.header msg) in
  mkStatics (Some stamp) (Some stamp) (Some (rotation_of msg)).

(** The finite-difference estimate of the callback: the skew matrix
    [(R - R_last) / dt * R^T], read at (2,1), (0,2) and (1,0) when [dt]
    exceeds 1e-6, and the zero vector of a fresh message otherwise. *)
Definition w_hat (R R_last : Matrix3d.t) (dt : float) : Matrix3d.t :=
  Matrix3d.mul (Matrix3d.div (Matrix3d.sub R R_last) dt) (Matrix3d.transpose R).

Definition angular_estimate (R R_last : Matrix3d.t) (dt : float) : Vector3.t :=
  if Double.gt dt 1e-6
  then Vector3.mk (Matrix3d.c21 (w_hat R R_last dt))
                  (Matrix3d.c02 (w_hat R R_last dt))
                  (Matrix3d.c10 (w_hat R R_last dt))
  else Vector3.mk 0 0 0.

(** A 36-entry covariance array that holds the 3 x 3 block of [m] starting
    at [(o, o)] in its rows 0..2 and columns 0..2, and zero elsewhere. *)
Definition block_array (m : list (list float)) (o : nat) : list float :=
  [ coeff2 m o o;       coeff2 m o (o + 1);       coeff2 m o (o + 2);       0; 0; 0;
    coeff2 m (o + 1) o; coeff2 m (o + 1) (o + 1); coeff2 m (o + 1) (o + 2); 0; 0; 0;
    coeff2 m (o + 2) o; coeff2 m (o + 2) (o + 1); coeff2 m (o + 2) (o + 2); 0; 0; 0 ]%float
  ++ replicate 18 0%float.

(** The time steps of a run: for each message the time since the stamp of
    the message before it, and for the first one the time since [last], or
    since its own stamp when no stamp is stored yet. *)
Fixpoint time_steps (last : option Time.t) (msgs : list PoseStamped.t) : list float :=
  match msgs with
  | [] => []
  | msg :: rest =>
      let stamp := Header.stamp (PoseStamped.header msg) in
      Duration.toSec (Time_sub stamp (default stamp last))
        :: time_steps (Some stamp) rest
  end.

(** The relay message of an input message: the input with the frame "fcu". *)
Definition relay_of (msg : PoseStamped.t) : PoseStamped.t :=
  PoseStamped.mk (Header.set_frame_id "fcu" (PoseStamped.header msg))
                 (PoseStamped.pose msg).

(** What one callback does to the filter, for a message and its time step. *)
Definition filter_step {KF : Type} `{KalmanFilter KF}
    (kf : KF) (m : PoseStamped.t * float) : KF :=
  measurementUpdate (measurement_of (fst m)) (snd m) (processUpdate (snd m) kf).

(* ===================================================================== *)
(** * Properties                                                          *)
(* ===================================================================== *)

(** ** Doubles *)

Lemma SFleb_not_SFltb (a b : spec_float) : SFleb a b = true -> SFltb b a = false.
Proof.
  unfold SFleb, SFltb.
  destruct a as [sa| sa | |sa ma ea], b as [sb| sb | |sb mb eb]; cbn;
    try destruct sa; try destruct sb; cbn; try congruence.
  all: rewrite (Z.compare_antisym ea eb);
    destruct (ea ?= eb)%Z; cbn; try congruence;
    rewrite (ZC4 mb ma);
    destruct (Pos.compare_cont Eq ma mb); cbn; congruence.
Qed.

(** [x <= y] excludes [x > y]. *)
Lemma leb_not_gt (x y : float) : PrimFloat.leb x y = true -> Double.gt x y = false.
Proof.
  unfold Double.gt. rewrite FloatAxioms.leb_spec, FloatAxioms.ltb_spec.
  apply SFleb_not_SFltb.
Qed.

(** A stamp is no time away from itself. *)
Lemma toSec_sub_diag (t : Time.t) : Duration.toSec (Time_sub t t) = 0%float.
Proof. unfold Time_sub. rewrite Z.sub_diag. reflexivity. Qed.

Section Properties.

Context {KF : Type} `{KalmanFilter KF}.

#[local] Arguments Double.gt : simpl never.
#[local] Arguments Duration.toSec : simpl never.
#[local] Arguments Time_sub : simpl never.
#[local] Arguments Quaterniond.toRotationMatrix : simpl never.
#[local] Arguments w_hat : simpl never.
#[local] Arguments fill_covariance : simpl never.

Ltac callback_unfold :=
  unfold cycle, gpsCallback, gpsCallback_body;
  cbv beta iota zeta delta
    [mbind mret M_bind M_ret emit member PublishTransform
     static_t_last_proc static_t_last_meas static_R_prev
     assign_t_last_proc assign_t_last_meas assign_R_prev
     kf_processUpdate kf_measurementUpdate kf_getState kf_getProcessNoise
     statics self t_last_proc t_last_meas R_prev
     kf_ initPose_ publish_tf_ child_frame_id_ set_kf_ app].

Ltac callback_cases w :=
  let tp := fresh "tp" in let tm := fresh "tm" in let rp := fresh "rp" in
  let kf := fresh "kf" in let ip := fresh "initPose" in
  let ptf := fresh "publish_tf" in let cfi := fresh "child_frame_id" in
  destruct w as [[[tp|] [tm|] [rp|]] [kf ip ptf cfi]];
  callback_unfold.

Ltac abstract_floats :=
  repeat match goal with
    | |- context [Duration.toSec ?d] => generalize (Duration.toSec d); intro
    | |- context [Quaterniond.toRotationMatrix ?q] =>
        generalize (Quaterniond.toRotationMatrix q); intro
    end.

Ltac guard_cases :=
  try match goal with
    | |- context [Double.gt ?d ?e] => destruct (Double.gt d e)
    end.

(** Every case of a callback: each static created or not, the transform
    asked for or not, the guard passed or not. *)
Ltac callback_solve w :=
  callback_cases w;
  match goal with publish_tf : bool |- _ => destruct publish_tf end;
  unfold statics_after, angular_estimate, dt_proc, dt_meas, rotation_of, measurement_of;
  cbv beta iota zeta delta [statics t_last_proc t_last_meas R_prev from_option id];
  abstract_floats; guard_cases;
  repeat match goal with
    | |- ex _ => eexists
    | |- _ /\ _ => split
    end;
  vm_compute; reflexivity.

(** ** One callback, piece by piece *)

(** The statics after a callback hold the message's stamp, twice, and the
    rotation of its orientation. *)
Lemma cycle_statics (msg : PoseStamped.t) (w : World KF) :
  statics (fst (cycle msg w)) = statics_after msg.
Proof. callback_solve w. Qed.

(** The filter goes through the time update and the measurement update; the
    other members stay. *)
Lemma cycle_self (msg : PoseStamped.t) (w : World KF) :
  self (fst (cycle msg w)) =
    set_kf_ (measurementUpdate (measurement_of msg) (dt_meas (statics w) msg)
               (processUpdate (dt_proc (statics w) msg) (kf_ (self w))))
            (self w).
Proof. callback_solve w. Qed.

Lemma cycle_process_updates (msg : PoseStamped.t) (w : World KF) :
  process_updates (snd (cycle msg w)) = [ dt_proc (statics w) msg ].
Proof. callback_solve w. Qed.

Lemma cycle_measurement_updates (msg : PoseStamped.t) (w : World KF) :
  measurement_updates (snd (cycle msg w)) =
    [ (measurement_of msg, dt_meas (statics w) msg) ].
Proof. callback_solve w. Qed.

(** Exactly one message goes to each of the three topics. *)
Lemma cycle_publishes_once (msg : PoseStamped.t) (w : World KF) :
  exists odom loc mocap,
    odom_published (snd (cycle msg w)) = [odom] /\
    localOdom_published (snd (cycle msg w)) = [loc] /\
    mocap_published (snd (cycle msg w)) = [mocap].
Proof. callback_solve w. Qed.

Lemma cycle_mocap (msg : PoseStamped.t) (w : World KF) :
  mocap_published (snd (cycle msg w)) =
    [ PoseStamped.mk
        (Header.set_frame_id "fcu" (PoseStamped.header msg))
        (PoseStamped.pose msg) ].
Proof.
  callback_cases w; destruct publish_tf; cbn; destruct msg as [h [[] q]]; reflexivity.
Qed.

(** The angular velocity on the global topic is the estimate against the
    stored rotation (the identity before the first callback). *)
Lemma cycle_angular (msg : PoseStamped.t) (w : World KF) :
  Odometry.angular <$> odom_published (snd (cycle msg w)) =
    [ angular_estimate (rotation_of msg)
        (default Matrix3d.Identity (R_prev (statics w)))
        (dt_proc (statics w) msg) ].
Proof. callback_solve w. Qed.

(** The global message carries the message's header and orientation and
    the filter's state. *)
Lemma cycle_odom_pose (msg : PoseStamped.t) (w : World KF) :
  let state := getState (kf_ (self (fst (cycle msg w)))) in
  (fun m => (Odometry.header m, Odometry.child_frame_id m, Odometry.orientation m,
             Odometry.position m, Odometry.linear m))
    <$> odom_published (snd (cycle msg w)) =
    [ (PoseStamped.header msg,
       Header.frame_id (PoseStamped.header msg),
       Pose.orientation (PoseStamped.pose msg),
       Point.mk (coeff state 0) (coeff state 1) (coeff state 2),
       Vector3.mk (coeff state 3) (coeff state 4) (coeff state 5)) ].
Proof. callback_solve w. Qed.

(** The loops write the two diagonal blocks and nothing else. *)
Lemma fill_covariance_blocks (P : ProcessCov_t) (om : Odometry.t) :
  Odometry.pose_covariance om = replicate 36 0%float ->
  Odometry.twist_covariance om = replicate 36 0%float ->
  Odometry.pose_covariance (fill_covariance P om) = block_array P 0 /\
  Odometry.twist_covariance (fill_covariance P om) = block_array P 3.
Proof.
  destruct om as [h c [p pc] [t tc]]. cbn. intros -> ->. split; reflexivity.
Qed.

Lemma cycle_covariance (msg : PoseStamped.t) (w : World KF) :
  let P := getProcessNoise (kf_ (self (fst (cycle msg w)))) in
  Odometry.pose_covariance <$> odom_published (snd (cycle msg w)) = [ block_array P 0 ] /\
  Odometry.twist_covariance <$> odom_published (snd (cycle msg w)) = [ block_array P 3 ].
Proof. callback_solve w. Qed.

(** The local message is the global one with the position moved. *)
Lemma cycle_local (msg : PoseStamped.t) (w : World KF) :
  let init := Pose.position (PoseStamped.pose (initPose_ (self w))) in
  localOdom_published (snd (cycle msg w)) =
    Odometry.upd_position
      (fun p => Point.mk (Point.x p - Point.x init)
                         (Point.y p - Point.y init)
                         (Point.z p - Point.z init))
    <$> odom_published (snd (cycle msg w)).
Proof. callback_solve w. Qed.

(** The transform goes out when, and only when, the flag is set. *)
Lemma cycle_transform (msg : PoseStamped.t) (w : World KF) :
  transforms_sent (snd (cycle msg w)) =
    if publish_tf_ (self w)
    then (fun m => TransformStamped.mk (Odometry.header m) (child_frame_id_ (self w))
                     (Transform.mk
                        (Vector3.mk (Point.x (Odometry.position m))
                                    (Point.y (Odometry.position m))
                                    (Point.z (Odometry.position m)))
                        (Odometry.orientation m)))
           <$> odom_published (snd (cycle msg w))
    else [].
Proof. callback_solve w. Qed.

(** The threshold plays no part in the callback. *)
Lemma threshold_unused (th : float) (msg : PoseStamped.t) (w : World KF) :
  gpsCallback_body th msg w = gpsCallback msg w.
Proof. reflexivity. Qed.

(** ** The claims on one fusion cycle *)

(** C5: on every fusion cycle exactly one Pose Relay message is published;
    its position and orientation are those of the raw input message, whatever
    the filter and its state, its frame identifier is the fixed string "fcu",
    and its time stamp (and sequence number) are the input message's. *)
Theorem pose_relay_passthrough (msg : PoseStamped.t) (w : World KF) :
  exists mocap,
    mocap_published (snd (cycle msg w)) = [mocap] /\
    Pose.position (PoseStamped.pose mocap) = Pose.position (PoseStamped.pose msg) /\
    Pose.orientation (PoseStamped.pose mocap) = Pose.orientation (PoseStamped.pose msg) /\
    Header.frame_id (PoseStamped.header mocap) = "fcu" /\
    Header.stamp (PoseStamped.header mocap) = Header.stamp (PoseStamped.header msg) /\
    Header.seq (PoseStamped.header mocap) = Header.seq (PoseStamped.header msg).
Proof.
  eexists. split; [apply cycle_mocap|]. cbn. repeat split; reflexivity.
Qed.

(** C3: on every fusion cycle the covariance read back from the filter after
    the measurement update reaches the global odometry message as two 3 x 3
    blocks: entry [6 i + j] of the pose covariance is entry [(i, j)] and entry
    [6 i + j] of the twist covariance is entry [(3 + i, 3 + j)], for [i], [j]
    in 0..2; every other entry of both arrays is zero, so no entry of the
    position-velocity cross blocks is published. *)
Theorem covariance_split_in_blocks (msg : PoseStamped.t) (w : World KF) :
  let P := getProcessNoise
             (measurementUpdate (measurement_of msg) (dt_meas (statics w) msg)
                (processUpdate (dt_proc (statics w) msg) (kf_ (self w)))) in
  Odometry.pose_covariance <$> odom_published (snd (cycle msg w)) = [ block_array P 0 ] /\
  Odometry.twist_covariance <$> odom_published (snd (cycle msg w)) = [ block_array P 3 ] /\
  Forall (fun i => Forall (fun j =>
      block_array P 0 !! (6 * i + j) = Some (coeff2 P i j) /\
      block_array P 3 !! (6 * i + j) = Some (coeff2 P (3 + i) (3 + j)))
    (seq 0 3)) (seq 0 3) /\
  Forall (fun k =>
      block_array P 0 !! k = Some 0%float /\ block_array P 3 !! k = Some 0%float)
    ([3; 4; 5; 9; 10; 11; 15; 16; 17] ++ seq 18 18).
Proof.
  intros P. pose proof (cycle_covariance msg w) as [Hp Ht].
  cbv zeta in Hp, Ht. rewrite cycle_self in Hp, Ht. cbn [kf_ set_kf_] in Hp, Ht.
  split; [exact Hp|]. split; [exact Ht|].
  split; repeat (constructor; try (split; reflexivity)).
Qed.

(** C4: on every fusion cycle one global and one local odometry message are
    published; the local position is the global position minus the initial
    pose's position, component by component, and the header, child frame,
    orientation, linear and angular velocity and both covariance arrays of the
    local message are those of the global one. *)
Theorem local_odometry_offset (msg : PoseStamped.t) (w : World KF) :
  let init := Pose.position (PoseStamped.pose (initPose_ (self w))) in
  exists odom loc,
    odom_published (snd (cycle msg w)) = [odom] /\
    localOdom_published (snd (cycle msg w)) = [loc] /\
    Odometry.position loc =
      Point.mk (Point.x (Odometry.position odom) - Point.x init)
               (Point.y (Odometry.position odom) - Point.y init)
               (Point.z (Odometry.position odom) - Point.z init) /\
    Odometry.header loc = Odometry.header odom /\
    Odometry.child_frame_id loc = Odometry.child_frame_id odom /\
    Odometry.orientation loc = Odometry.orientation odom /\
    Odometry.linear loc = Odometry.linear odom /\
    Odometry.angular loc = Odometry.angular odom /\
    Odometry.pose_covariance loc = Odometry.pose_covariance odom /\
    Odometry.twist_covariance loc = Odometry.twist_covariance odom.
Proof.
  intros init.
  destruct (cycle_publishes_once msg w) as (odom & loc & mocap & Ho & Hl & _).
  pose proof (cycle_local msg w) as Hloc. cbv zeta in Hloc.
  rewrite Ho, Hl in Hloc. injection Hloc as ->.
  exists odom. eexists. split; [exact Ho|]. split; [exact Hl|].
  destruct odom as [h c [[p q] pc] [[l a] tc]]. cbn. repeat split; reflexivity.
Qed.

(** C6: for every received measurement the callback calls the filter's
    measurement update exactly once, with the 3D position of that measurement,
    after the time update: the filter the node holds afterwards is the result
    of these two calls and no branch skips them. The local constant
    [hypothesis_test_threshold] decides nothing: the callback is the same
    function for every value of it. *)
Theorem measurement_never_rejected (th : float) (msg : PoseStamped.t) (w : World KF) :
  measurement_updates (snd (cycle msg w)) =
    [ (measurement_of msg, dt_meas (statics w) msg) ] /\
  kf_ (self (fst (cycle msg w))) =
    measurementUpdate (measurement_of msg) (dt_meas (statics w) msg)
      (processUpdate (dt_proc (statics w) msg) (kf_ (self w))) /\
  gpsCallback_body th msg w = gpsCallback msg w.
Proof.
  split; [apply cycle_measurement_updates|].
  split; [rewrite cycle_self; reflexivity|].
  apply threshold_unused.
Qed.

(** C9: every callback stores the rotation matrix of its message's
    orientation as the previous rotation, whether or not [dt_proc] passes the
    1e-6 guard; the callback that follows therefore takes its finite
    difference against the rotation of the message just before it. *)
Theorem previous_rotation_always_updated (msg next : PoseStamped.t) (w : World KF) :
  R_prev (statics (fst (cycle msg w))) = Some (rotation_of msg) /\
  Odometry.angular <$> odom_published (snd (cycle next (fst (cycle msg w)))) =
    [ angular_estimate (rotation_of next) (rotation_of msg)
        (dt_proc (statics (fst (cycle msg w))) next) ].
Proof.
  rewrite cycle_angular, cycle_statics. split; reflexivity.
Qed.

(** C1 (amended): on a callback whose [dt_proc] is at or below 1e-6, which
    includes the first callback of the process, the finite difference is
    skipped and the angular velocity published on the global odometry topic
    is the zero vector of the freshly declared message, whatever the previous
    cycle reported. *)
Theorem angular_velocity_zero_at_small_dt (msg : PoseStamped.t) (w : World KF) :
  PrimFloat.leb (dt_proc (statics w) msg) 1e-6 = true \/ t_last_proc (statics w) = None ->
  Odometry.angular <$> odom_published (snd (cycle msg w)) = [ Vector3.mk 0 0 0 ].
Proof.
  intros Hdt. rewrite cycle_angular. unfold angular_estimate.
  destruct Hdt as [Hle | Hfirst].
  - rewrite (leb_not_gt _ _ Hle). reflexivity.
  - unfold dt_proc. rewrite Hfirst. cbn [default from_option id].
    rewrite toSec_sub_diag. reflexivity.
Qed.

(** ** Runs of callbacks *)

Lemma spin_cons (msg : PoseStamped.t) (rest : list PoseStamped.t) (w : World KF) :
  spin (msg :: rest) w =
    (fst (spin rest (fst (cycle msg w))),
     snd (cycle msg w) :: snd (spin rest (fst (cycle msg w)))).
Proof.
  cbn [spin]. destruct (cycle msg w) as [w1 ev]. cbn [fst snd].
  destruct (spin rest w1) as [w2 evs]. reflexivity.
Qed.

Lemma run_cons (i : nat) (msg : PoseStamped.t) (rest : list (nat * PoseStamped.t))
    (p : Process KF) :
  run ((i, msg) :: rest) p =
    (fst (run rest (fst (deliver i msg p))),
     (i, snd (deliver i msg p)) :: snd (run rest (fst (deliver i msg p)))).
Proof.
  cbn [run]. destruct (deliver i msg p) as [p1 ev]. cbn [fst snd].
  destruct (run rest p1) as [p2 evs]. reflexivity.
Qed.

Lemma deliver_Some (i : nat) (msg : PoseStamped.t) (p : Process KF) (node : gpsOdom KF) :
  p_nodes p !! i = Some node ->
  deliver i msg p =
    (mkProcess (statics_after msg)
       (<[i := self (fst (cycle msg (mkWorld (p_statics p) node)))]> (p_nodes p)),
     snd (cycle msg (mkWorld (p_statics p) node))).
Proof.
  intros Hi. unfold deliver. rewrite Hi.
  rewrite <- (cycle_statics msg (mkWorld (p_statics p) node)).
  destruct (cycle msg (mkWorld (p_statics p) node)) as [w1 ev]. reflexivity.
Qed.

Lemma deliver_None (i : nat) (msg : PoseStamped.t) (p : Process KF) :
  p_nodes p !! i = None -> deliver i msg p = (p, []).
Proof. intros Hi. unfold deliver. rewrite Hi. reflexivity. Qed.

Lemma outputs_of_cons (i j : nat) (ev : list Event) (tr : list (nat * list Event)) :
  outputs_of i ((j, ev) :: tr) =
    if decide (j = i) then ev :: outputs_of i tr else outputs_of i tr.
Proof.
  unfold outputs_of. rewrite filter_cons. cbn [fst].
  destruct (decide (j = i)); reflexivity.
Qed.

(** The clocks agree once they agree, and a callback makes them agree. *)
Lemma spin_clocks (msgs : list PoseStamped.t) (w : World KF) :
  t_last_proc (statics w) = t_last_meas (statics w) ->
  Forall (fun ev => exists dt meas,
            process_updates ev = [dt] /\ measurement_updates ev = [(meas, dt)])
         (snd (spin msgs w)) /\
  t_last_proc (statics (fst (spin msgs w))) = t_last_meas (statics (fst (spin msgs w))).
Proof.
  revert w. induction msgs as [|msg rest IH]; intros w Hw.
  - split; [constructor | exact Hw].
  - rewrite spin_cons. cbn [fst snd].
    destruct (IH (fst (cycle msg w))) as [IHev IHst].
    { rewrite cycle_statics. reflexivity. }
    split; [|exact IHst].
    constructor; [|exact IHev].
    exists (dt_proc (statics w) msg), (measurement_of msg).
    rewrite cycle_process_updates, cycle_measurement_updates.
    unfold dt_proc, dt_meas. rewrite Hw. split; reflexivity.
Qed.

(** A node's outputs depend on the other [gpsOdom] objects of the process
    neither through their filters nor through their other members. *)
Lemma run_other_objects (sched : list (nat * PoseStamped.t)) (i : nat) :
  forall (s : Statics) (nodes nodes' : list (gpsOdom KF)),
    length nodes = length nodes' ->
    nodes !! i = nodes' !! i ->
    outputs_of i (snd (run sched (mkProcess s nodes))) =
    outputs_of i (snd (run sched (mkProcess s nodes'))).
Proof.
  induction sched as [|[j msg] rest IH]; intros s nodes nodes' Hlen Hi; [reflexivity|].
  rewrite !run_cons. cbn [snd]. rewrite !outputs_of_cons.
  destruct (nodes !! j) as [nj|] eqn:Hj.
  - assert (Hlt : j < length nodes') by (rewrite <- Hlen; eapply lookup_lt_Some; eauto).
    destruct (lookup_lt_is_Some_2 _ _ Hlt) as [nj' Hj'].
    rewrite (deliver_Some j msg (mkProcess s nodes) nj Hj).
    rewrite (deliver_Some j msg (mkProcess s nodes') nj' Hj').
    cbn [fst snd p_statics p_nodes].
    destruct (decide (j = i)) as [->|Hne].
    + assert (nj' = nj) as -> by congruence.
      f_equal. apply IH.
      * rewrite !length_insert. exact Hlen.
      * rewrite !list_lookup_insert_eq; [reflexivity | exact Hlt |].
        eapply lookup_lt_Some; eauto.
    + apply IH.
      * rewrite !length_insert. exact Hlen.
      * rewrite !list_lookup_insert_ne by exact Hne. exact Hi.
  - assert (Hj' : nodes' !! j = None).
    { apply lookup_ge_None. rewrite <- Hlen. apply lookup_ge_None. exact Hj. }
    rewrite (deliver_None j msg (mkProcess s nodes) Hj).
    rewrite (deliver_None j msg (mkProcess s nodes') Hj').
    cbn [fst snd]. rewrite (IH s nodes nodes' Hlen Hi). reflexivity.
Qed.

(** With its own stream only, a node in a process behaves as if alone. *)
Lemma run_own_stream (msgs : list PoseStamped.t) (i : nat) :
  forall (s : Statics) (nodes : list (gpsOdom KF)) (node : gpsOdom KF),
    nodes !! i = Some node ->
    outputs_of i (snd (run (pair i <$> msgs) (mkProcess s nodes))) =
    snd (spin msgs (mkWorld s node)).
Proof.
  induction msgs as [|msg rest IH]; intros s nodes node Hi; [reflexivity|].
  rewrite fmap_cons, run_cons, spin_cons. cbn [snd].
  rewrite outputs_of_cons. destruct (decide (i = i)) as [_|]; [|congruence].
  rewrite (deliver_Some i msg (mkProcess s nodes) node Hi).
  cbn [fst snd p_statics p_nodes]. f_equal.
  rewrite (IH _ _ (self (fst (cycle msg (mkWorld s node))))).
  - rewrite <- (cycle_statics msg (mkWorld s node)).
    destruct (fst (cycle msg (mkWorld s node))); reflexivity.
  - apply list_lookup_insert_eq. eapply lookup_lt_Some; eauto.
Qed.

(** C10: in a run of the node from process start, every callback passes the
    same time step to the filter's time update and to its measurement update:
    the two stored stamps are seeded by the first message and overwritten by
    every message, so they are equal before and after every callback. *)
Theorem clocks_never_diverge (node : gpsOdom KF) (msgs : list PoseStamped.t) :
  Forall (fun ev => exists dt meas,
            process_updates ev = [dt] /\ measurement_updates ev = [(meas, dt)])
         (snd (spin msgs (mkWorld Statics_initial node))) /\
  t_last_proc (statics (fst (spin msgs (mkWorld Statics_initial node)))) =
  t_last_meas (statics (fst (spin msgs (mkWorld Statics_initial node)))).
Proof. apply spin_clocks. reflexivity. Qed.

(** C2 (amended): the filter, the initial pose and the configuration are held
    per node object, the two previous stamps and the previous rotation are
    statics of the callback, one copy for the whole process. For a node [i]
    of a process: its outputs are the same whatever the other node objects
    hold; when only its own stream is delivered they are the outputs of the
    node running alone; and a callback of any node [j] of the process leaves
    the stamp and rotation of its message in the shared statics, from which
    the next callback, of any node, takes its [dt] and its previous rotation. *)
Theorem statics_shared_between_nodes (s : Statics) (nodes nodes' : list (gpsOdom KF))
    (i : nat) (node : gpsOdom KF) :
  nodes !! i = Some node ->
  nodes' !! i = Some node ->
  length nodes = length nodes' ->
  (forall sched,
     outputs_of i (snd (run sched (mkProcess s nodes))) =
     outputs_of i (snd (run sched (mkProcess s nodes')))) /\
  (forall msgs,
     outputs_of i (snd (run (pair i <$> msgs) (mkProcess s nodes))) =
     snd (spin msgs (mkWorld s node))) /\
  (forall j msg,
     j < length nodes ->
     p_statics (fst (deliver j msg (mkProcess s nodes))) = statics_after msg).
Proof.
  intros Hi Hi' Hlen. split; [|split].
  - intros sched. apply run_other_objects; [exact Hlen | congruence].
  - intros msgs. apply run_own_stream. exact Hi.
  - intros j msg Hj. destruct (lookup_lt_is_Some_2 _ _ Hj) as [nj Hnj].
    rewrite (deliver_Some j msg (mkProcess s nodes) nj Hnj). reflexivity.
Qed.

(** ** Start-up *)

(** C7: when the constructor builds the node, with [dt = 1 / rate] the filter
    is initialised with the process noise [diag (p, p, p, v, v, v)] where
    [p] is the product of [0.5 * a_max * dt * dt] with itself and [v] the
    product of [a_max * dt] with itself, and with the measurement noise
    [diag (m, m, m)] where [m = 1e-2 * 1e-2] is a constant of the program
    that no parameter enters. *)
Theorem noise_variances (quadName : string) (ps : gmap string XmlRpcValue)
    (first : PoseStamped.t) (node : gpsOdom KF) :
  gpsOdom_new quadName ps first = Constructed node ->
  let a_max := param_double ps (quadName +:+ "/max_accel") 5.0%float in
  let rate := param_double ps (quadName +:+ "/gps_fps") 20.0%float in
  let dt := (1.0 / rate)%float in
  let p := ((0.5 * a_max * dt * dt) * (0.5 * a_max * dt * dt))%float in
  let v := ((a_max * dt) * (a_max * dt))%float in
  let m := (1e-2 * 1e-2)%float in
  kf_ node =
    initialize
      [ Point.x (Pose.position (PoseStamped.pose first));
        Point.y (Pose.position (PoseStamped.pose first));
        Point.z (Pose.position (PoseStamped.pose first));
        0%float; 0%float; 0%float ]
      (scaledIdentity 1 6)
      [ [p; 0; 0; 0; 0; 0]; [0; p; 0; 0; 0; 0]; [0; 0; p; 0; 0; 0];
        [0; 0; 0; v; 0; 0]; [0; 0; 0; 0; v; 0]; [0; 0; 0; 0; 0; v] ]%float
      [ [m; 0; 0]; [0; m; 0]; [0; 0; m] ]%float
      kf_default.
Proof.
  unfold gpsOdom_new.
  destruct (param_bool ps (quadName +:+ "/publish_tf") true &&
            empty (param_string ps (quadName +:+ "/child_frame_id") "base_link"));
    [discriminate|].
  destruct (negb (Double.gt (param_double ps (quadName +:+ "/gps_fps") 20) 0));
    [discriminate|].
  intros [= <-]. reflexivity.
Qed.

(** C8 (amended): the process exits with code 1 exactly when the transform
    flag resolves to true (its default) and the child frame identifier
    resolves to the empty string, in which case the constructor throws;
    otherwise, with a positive measurement rate, the node is constructed and
    the process exits with code 0 when [ros::spin] returns. A child frame
    identifier that is not provided resolves to "base_link": construction
    does not throw for it. *)
Theorem startup_exit_code (quadName : string) (ps : gmap string XmlRpcValue)
    (first : PoseStamped.t) (msgs : list PoseStamped.t) :
  let publish_tf := param_bool ps (quadName +:+ "/publish_tf") true in
  let child := param_string ps (quadName +:+ "/child_frame_id") "base_link" in
  let gps_fps := param_double ps (quadName +:+ "/gps_fps") 20.0%float in
  fst (main quadName ps first msgs) =
    (if publish_tf && empty child then Exit 1
     else if Double.gt gps_fps 0 then Exit 0 else Aborted) /\
  match gpsOdom_new quadName ps first with
  | Thrown what =>
      publish_tf && empty child = true /\
      what = "gps_odom: child_frame_id required for publishing tf"
  | AssertionFailed =>
      publish_tf && empty child = false /\ Double.gt gps_fps 0 = false
  | Constructed node =>
      publish_tf && empty child = false /\ Double.gt gps_fps 0 = true /\
      initPose_ node = first /\ publish_tf_ node = publish_tf /\
      child_frame_id_ node = child
  end /\
  (ps !! (quadName +:+ "/child_frame_id") = None ->
   child = "base_link" /\ fst (main quadName ps first msgs) <> Exit 1).
Proof.
  intros publish_tf child gps_fps.
  assert (Hmain : fst (main quadName ps first msgs) =
                  if publish_tf && empty child then Exit 1
                  else if Double.gt gps_fps 0 then Exit 0 else Aborted).
  { unfold main, gpsOdom_new. fold publish_tf child gps_fps.
    destruct (publish_tf && empty child); [reflexivity|].
    destruct (Double.gt gps_fps 0); cbn [negb]; [|reflexivity].
    match goal with |- context [spin msgs ?w] => destruct (spin msgs w) end.
    reflexivity. }
  split; [exact Hmain|]. split.
  - unfold gpsOdom_new. fold publish_tf child gps_fps.
    destruct (publish_tf && empty child); [split; reflexivity|].
    destruct (Double.gt gps_fps 0); cbn [negb]; repeat split; reflexivity.
  - intros Hnone.
    assert (Hchild : child = "base_link").
    { unfold child, param_string. rewrite Hnone. reflexivity. }
    split; [exact Hchild|].
    rewrite Hmain, Hchild. cbn [empty]. rewrite andb_false_r.
    destruct (Double.gt gps_fps 0); discriminate.
Qed.

(** ** Further properties of the callback *)

(** X1: a callback sends a transform exactly when [publish_tf_] is set, and
    then one: its translation is the fused position, its rotation the input
    orientation, its header the input header and its child frame the
    configured one. *)
Theorem transform_matches_global_pose (msg : PoseStamped.t) (w : World KF) :
  let state := getState
                 (measurementUpdate (measurement_of msg) (dt_meas (statics w) msg)
                    (processUpdate (dt_proc (statics w) msg) (kf_ (self w)))) in
  transforms_sent (snd (cycle msg w)) =
    if publish_tf_ (self w)
    then [ TransformStamped.mk (PoseStamped.header msg) (child_frame_id_ (self w))
             (Transform.mk
                (Vector3.mk (coeff state 0) (coeff state 1) (coeff state 2))
                (Pose.orientation (PoseStamped.pose msg))) ]
    else [].
Proof. callback_solve w. Qed.

(** X2: the global odometry message of a callback carries the input header,
    the input frame as child frame, the input orientation, and the position
    and linear velocity the filter holds after the measurement update
    (entries 0..2 and 3..5 of its state). *)
Theorem global_odometry_content (msg : PoseStamped.t) (w : World KF) :
  let state := getState
                 (measurementUpdate (measurement_of msg) (dt_meas (statics w) msg)
                    (processUpdate (dt_proc (statics w) msg) (kf_ (self w)))) in
  exists odom,
    odom_published (snd (cycle msg w)) = [odom] /\
    Odometry.header odom = PoseStamped.header msg /\
    Odometry.child_frame_id odom = Header.frame_id (PoseStamped.header msg) /\
    Odometry.orientation odom = Pose.orientation (PoseStamped.pose msg) /\
    Odometry.position odom = Point.mk (coeff state 0) (coeff state 1) (coeff state 2) /\
    Odometry.linear odom = Vector3.mk (coeff state 3) (coeff state 4) (coeff state 5).
Proof.
  intros state.
  destruct (cycle_publishes_once msg w) as (odom & loc & mocap & Ho & _).
  pose proof (cycle_odom_pose msg w) as Hp. cbv zeta in Hp.
  rewrite Ho, cycle_self in Hp. cbn [kf_ set_kf_ fmap list_fmap] in Hp.
  injection Hp as Hh Hc Hq Hx Hl.
  exists odom. repeat split; assumption.
Qed.

(** X3: the events of a callback come in one order: the time update, the
    measurement update, the global odometry, the transform if any, the local
    odometry, the relay; one message goes to each topic and at most one
    transform is sent. *)
Theorem callback_event_order (msg : PoseStamped.t) (w : World KF) :
  snd (cycle msg w) =
    [ KfProcessUpdate (dt_proc (statics w) msg);
      KfMeasurementUpdate (measurement_of msg) (dt_meas (statics w) msg) ]
    ++ (PublishOdom <$> odom_published (snd (cycle msg w)))
    ++ (SendTransform <$> transforms_sent (snd (cycle msg w)))
    ++ (PublishLocalOdom <$> localOdom_published (snd (cycle msg w)))
    ++ (PublishMocap <$> mocap_published (snd (cycle msg w))) /\
  length (odom_published (snd (cycle msg w))) = 1 /\
  length (localOdom_published (snd (cycle msg w))) = 1 /\
  length (mocap_published (snd (cycle msg w))) = 1 /\
  length (transforms_sent (snd (cycle msg w))) = (if publish_tf_ (self w) then 1 else 0).
Proof. callback_solve w. Qed.

(** X10: the initial pose, the transform flag and the child frame of the node
    enter neither the filter calls nor the global odometry nor the relay:
    two nodes with the same filter, run on the same statics and message,
    agree on all of these and leave the same filter and statics. *)
Theorem global_outputs_ignore_configuration (s : Statics) (kf : KF)
    (ip ip' : PoseStamped.t) (tf tf' : bool) (c c' : string) (msg : PoseStamped.t) :
  let w := mkWorld s (mkGpsOdom kf ip tf c) in
  let w' := mkWorld s (mkGpsOdom kf ip' tf' c') in
  odom_published (snd (cycle msg w)) = odom_published (snd (cycle msg w')) /\
  mocap_published (snd (cycle msg w)) = mocap_published (snd (cycle msg w')) /\
  process_updates (snd (cycle msg w)) = process_updates (snd (cycle msg w')) /\
  measurement_updates (snd (cycle msg w)) = measurement_updates (snd (cycle msg w')) /\
  kf_ (self (fst (cycle msg w))) = kf_ (self (fst (cycle msg w'))) /\
  statics (fst (cycle msg w)) = statics (fst (cycle msg w')).
Proof.
  intros w w'. split.
  - subst w w'. destruct s as [[tp|] [tm|] [rp|]]; destruct tf, tf';
      callback_unfold; abstract_floats; guard_cases; vm_compute; reflexivity.
  - rewrite !cycle_mocap, !cycle_process_updates, !cycle_measurement_updates,
      !cycle_self, !cycle_statics.
    repeat match goal with |- _ /\ _ => split end; reflexivity.
Qed.

(** ** Further properties of a run *)

Lemma cycle_config (msg : PoseStamped.t) (w : World KF) :
  initPose_ (self (fst (cycle msg w))) = initPose_ (self w) /\
  publish_tf_ (self (fst (cycle msg w))) = publish_tf_ (self w) /\
  child_frame_id_ (self (fst (cycle msg w))) = child_frame_id_ (self w).
Proof. rewrite cycle_self. repeat split; reflexivity. Qed.

(** X4: no callback changes the initial pose, the transform flag or the
    child frame: after any run the node holds the ones it was built with. *)
Theorem configuration_fixed_over_run (msgs : list PoseStamped.t) (w : World KF) :
  initPose_ (self (fst (spin msgs w))) = initPose_ (self w) /\
  publish_tf_ (self (fst (spin msgs w))) = publish_tf_ (self w) /\
  child_frame_id_ (self (fst (spin msgs w))) = child_frame_id_ (self w).
Proof.
  revert w. induction msgs as [|msg rest IH]; intros w; [repeat split; reflexivity|].
  rewrite spin_cons. cbn [fst].
  destruct (IH (fst (cycle msg w))) as (Hi & Hp & Hc).
  destruct (cycle_config msg w) as (Hi' & Hp' & Hc').
  repeat split; congruence.
Qed.

(** X5: in a run the time step of the first callback is taken against the
    stored stamp, each later one against the stamp of the message just
    before, for the time update and for the measurement update alike; a run
    that starts the process begins with the time step 0. *)
Theorem run_time_steps (msgs : list PoseStamped.t) (w : World KF) :
  concat (process_updates <$> snd (spin msgs w)) =
    time_steps (t_last_proc (statics w)) msgs /\
  snd <$> concat (measurement_updates <$> snd (spin msgs w)) =
    time_steps (t_last_meas (statics w)) msgs /\
  (forall msg rest,
     time_steps None (msg :: rest) =
       0%float :: time_steps (Some (Header.stamp (PoseStamped.header msg))) rest).
Proof.
  split; [|split].
  - revert w. induction msgs as [|msg rest IH]; intros w; [reflexivity|].
    rewrite spin_cons. cbn [snd fmap list_fmap concat time_steps].
    rewrite cycle_process_updates, IH, cycle_statics. reflexivity.
  - revert w. induction msgs as [|msg rest IH]; intros w; [reflexivity|].
    rewrite spin_cons. cbn [snd fmap list_fmap concat time_steps].
    rewrite cycle_measurement_updates. cbn [app fmap list_fmap snd].
    rewrite IH, cycle_statics. reflexivity.
  - intros msg rest. cbn [time_steps default from_option id].
    rewrite toSec_sub_diag. reflexivity.
Qed.

Lemma spin_filter (msgs : list PoseStamped.t) (w : World KF) :
  t_last_proc (statics w) = t_last_meas (statics w) ->
  kf_ (self (fst (spin msgs w))) =
    foldl filter_step (kf_ (self w)) (zip msgs (time_steps (t_last_proc (statics w)) msgs)).
Proof.
  revert w. induction msgs as [|msg rest IH]; intros w Hw; [reflexivity|].
  rewrite spin_cons. cbn [fst time_steps zip zip_with foldl].
  rewrite IH by (rewrite cycle_statics; reflexivity).
  rewrite cycle_self, cycle_statics. cbn [kf_ set_kf_ statics_after t_last_proc].
  unfold filter_step at 2. cbn [fst snd].
  unfold dt_meas, dt_proc. rewrite Hw. reflexivity.
Qed.

Lemma spin_measurements (msgs : list PoseStamped.t) (w : World KF) :
  fst <$> concat (measurement_updates <$> snd (spin msgs w)) = measurement_of <$> msgs.
Proof.
  revert w. induction msgs as [|msg rest IH]; intros w; [reflexivity|].
  rewrite spin_cons. cbn [snd fmap list_fmap concat].
  rewrite cycle_measurement_updates. cbn [app fmap list_fmap fst].
  rewrite IH. reflexivity.
Qed.

(** X6: a run from process start feeds every message to the filter, in
    arrival order and none twice: the filter the node holds afterwards is the
    left fold, over the messages with their time steps, of "time update, then
    measurement update with the message's position". *)
Theorem filter_after_run (msgs : list PoseStamped.t) (node : gpsOdom KF) :
  kf_ (self (fst (spin msgs (mkWorld Statics_initial node)))) =
    foldl filter_step (kf_ node) (zip msgs (time_steps None msgs)) /\
  fst <$> concat (measurement_updates <$> snd (spin msgs (mkWorld Statics_initial node))) =
    measurement_of <$> msgs.
Proof.
  split; [|apply spin_measurements].
  rewrite spin_filter by reflexivity. reflexivity.
Qed.

(** X7: a message that carries the stamp of the message before it (a repeated
    delivery, for one) reaches the filter with the time step 0 in both
    updates, and its global odometry reports the angular velocity 0. *)
Theorem repeated_stamp_zero_step (msg next : PoseStamped.t) (w : World KF) :
  Header.stamp (PoseStamped.header next) = Header.stamp (PoseStamped.header msg) ->
  process_updates (snd (cycle next (fst (cycle msg w)))) = [ 0%float ] /\
  measurement_updates (snd (cycle next (fst (cycle msg w)))) =
    [ (measurement_of next, 0%float) ] /\
  Odometry.angular <$> odom_published (snd (cycle next (fst (cycle msg w)))) =
    [ Vector3.mk 0 0 0 ].
Proof.
  intros Hs.
  rewrite cycle_process_updates, cycle_measurement_updates, cycle_angular, cycle_statics.
  unfold dt_proc, dt_meas, statics_after, angular_estimate.
  cbn [t_last_proc t_last_meas default from_option id].
  rewrite Hs, toSec_sub_diag. repeat split; reflexivity.
Qed.

(** X9: after a run the statics hold the stamp and the rotation of the last
    message only: what the node remembers of the stream, besides the filter,
    is its last message. *)
Theorem run_remembers_last_message (msgs : list PoseStamped.t) (msg : PoseStamped.t)
    (w : World KF) :
  statics (fst (spin (msgs ++ [msg]) w)) = statics_after msg.
Proof.
  revert w. induction msgs as [|m rest IH]; intros w.
  - cbn [app]. rewrite spin_cons. cbn [fst spin]. apply cycle_statics.
  - cbn [app]. rewrite spin_cons. cbn [fst]. apply IH.
Qed.

Lemma spin_relays (msgs : list PoseStamped.t) (w : World KF) :
  concat (mocap_published <$> snd (spin msgs w)) = relay_of <$> msgs /\
  length (snd (spin msgs w)) = length msgs.
Proof.
  revert w. induction msgs as [|msg rest IH]; intros w; [split; reflexivity|].
  rewrite spin_cons. cbn [snd fmap list_fmap concat length].
  destruct (IH (fst (cycle msg w))) as [IHr IHl].
  rewrite cycle_mocap, IHr, IHl. split; reflexivity.
Qed.

(** X8: when [main] returns 0 there was one callback per delivered message,
    and the relay topic received every input pose, in order, under the frame
    "fcu". *)
Theorem main_relays_every_message (quadName : string) (ps : gmap string XmlRpcValue)
    (first : PoseStamped.t) (msgs : list PoseStamped.t) :
  fst (main quadName ps first msgs) = Exit 0 ->
  concat (mocap_published <$> snd (main quadName ps first msgs)) = relay_of <$> msgs /\
  length (snd (main quadName ps first msgs)) = length msgs.
Proof.
  unfold main. destruct (gpsOdom_new quadName ps first) as [node|what|];
    [| discriminate ..].
  pose proof (spin_relays msgs (mkWorld Statics_initial node)) as Hr.
  destruct (spin msgs (mkWorld Statics_initial node)) as [w evs].
  cbn [fst snd] in *. intros _. exact Hr.
Qed.

End Properties.

(* ===================================================================== *)
(** * The node on the sample inputs                                       *)
(* ===================================================================== *)

Import Sample.

(** The stream [m0, m1, m2]: a quarter turn over one second between [m0] and
    [m1], then [m2] with the stamp of [m1]. *)
Example sample_time_steps :
  process_updates <$> snd (spin [m0; m1; m2] world) = [ [0%float]; [1%float]; [0%float] ].
Proof. vm_compute. reflexivity. Qed.

Example sample_angular_velocities :
  angular_reported (snd (spin [m0; m1; m2] world)) =
    [ Vector3.mk 0 0 0; Vector3.mk 0 0 0x1.0000000000001p+0; Vector3.mk 0 0 0 ].
Proof. vm_compute. reflexivity. Qed.

Example sample_local_position :
  Odometry.position <$> localOdom_published (snd (cycle other world)) = [ Point.mk 7 0 0 ] /\
  Odometry.position <$> localOdom_published
                          (snd (cycle other (mkWorld Statics_initial node'))) = [ Point.mk 0 0 0 ].
Proof. split; vm_compute; reflexivity. Qed.

(** C1, as stated, fails: [m2] arrives with [dt_proc = 0], at or below 1e-6,
    after a cycle that reported a yaw rate of about 1 rad/s; the global
    odometry message of [m2] reports the zero vector, not the previous value. *)
Lemma angular_velocity_not_held :
  dt_proc (statics world2) m2 = 0%float /\
  PrimFloat.leb (dt_proc (statics world2) m2) 1e-6 = true /\
  Odometry.angular <$> odom_published (snd (cycle m1 world1)) =
    [ Vector3.mk 0 0 0x1.0000000000001p+0 ] /\
  Odometry.angular <$> odom_published (snd (cycle m2 world2)) = [ Vector3.mk 0 0 0 ] /\
  Odometry.angular <$> odom_published (snd (cycle m2 world2)) <>
  Odometry.angular <$> odom_published (snd (cycle m1 world1)).
Proof.
  repeat split; try (vm_compute; reflexivity).
  intros Heq.
  apply (f_equal (fun l => match l with
                           | [v] => PrimFloat.eqb (Vector3.z v) 0
                           | _ => false
                           end)) in Heq.
  vm_compute in Heq. discriminate.
Qed.

(** The amended C1 on the sample stream: at [m2], whose time step is 0, and at
    the first callback of the process. *)
Lemma angular_velocity_zero_witness :
  Odometry.angular <$> odom_published (snd (cycle m2 world2)) = [ Vector3.mk 0 0 0 ] /\
  Odometry.angular <$> odom_published (snd (cycle m0 world)) = [ Vector3.mk 0 0 0 ].
Proof.
  split.
  - apply angular_velocity_zero_at_small_dt. left. vm_compute. reflexivity.
  - apply angular_velocity_zero_at_small_dt. right. reflexivity.
Defined.

(** C2, as stated, fails: with two nodes in one process, delivering the
    message [other] to node 1 between the two messages of node 0 changes what
    node 0 publishes: its second time step drops from 1 s to 0 s, and the yaw
    rate in its second global odometry message from about 1 rad/s to 0. *)
Lemma other_stream_changes_outputs :
  angular_reported
    (outputs_of 0 (snd (run [(0, m0); (0, m1)]
                            (mkProcess Statics_initial [node; node'])))) =
    [ Vector3.mk 0 0 0; Vector3.mk 0 0 0x1.0000000000001p+0 ] /\
  angular_reported
    (outputs_of 0 (snd (run [(0, m0); (1, other); (0, m1)]
                            (mkProcess Statics_initial [node; node'])))) =
    [ Vector3.mk 0 0 0; Vector3.mk 0 0 0 ] /\
  outputs_of 0 (snd (run [(0, m0); (1, other); (0, m1)]
                         (mkProcess Statics_initial [node; node']))) <>
  outputs_of 0 (snd (run [(0, m0); (0, m1)]
                         (mkProcess Statics_initial [node; node']))).
Proof.
  split; [vm_compute; reflexivity|]. split; [vm_compute; reflexivity|].
  intros Heq.
  apply (f_equal (fun o => match angular_reported o with
                           | [_; v] => PrimFloat.eqb (Vector3.z v) 0
                           | _ => false
                           end)) in Heq.
  vm_compute in Heq. discriminate.
Qed.

(** The amended C2 on a process of two nodes, for node 0. *)
Lemma statics_shared_witness :
  (forall sched,
     outputs_of 0 (snd (run sched (mkProcess Statics_initial [node; node']))) =
     outputs_of 0 (snd (run sched (mkProcess Statics_initial [node; node])))) /\
  (forall msgs,
     outputs_of 0 (snd (run (pair 0 <$> msgs) (mkProcess Statics_initial [node; node']))) =
     snd (spin msgs (mkWorld Statics_initial node))) /\
  (forall j msg,
     j < 2 ->
     p_statics (fst (deliver j msg (mkProcess Statics_initial [node; node']))) =
     statics_after msg).
Proof.
  apply (statics_shared_between_nodes Statics_initial [node; node'] [node; node] 0 node);
    reflexivity.
Defined.

(** C7 on a filter that keeps its noise matrices, for [a_max = 2] and
    [rate = 4]: [dt = 0.25], the position variance is [0.0625 * 0.0625], the
    velocity variance [0.5 * 0.5] and the measurement variance [1e-2 * 1e-2];
    none of them is the unsquared magnitude. *)
Lemma noise_variances_witness :
  exists node : gpsOdom NoiseKeeping.t,
    gpsOdom_new quadName ps_noise m0 = Constructed node /\
    NoiseKeeping.Q (kf_ node) =
      [ [0.00390625; 0; 0; 0; 0; 0]; [0; 0.00390625; 0; 0; 0; 0];
        [0; 0; 0.00390625; 0; 0; 0]; [0; 0; 0; 0.25; 0; 0];
        [0; 0; 0; 0; 0.25; 0]; [0; 0; 0; 0; 0; 0.25] ]%float /\
    NoiseKeeping.R (kf_ node) =
      [ [0.0001; 0; 0]; [0; 0.0001; 0]; [0; 0; 0.0001] ]%float /\
    PrimFloat.ltb 0.0001 1e-2 = true.
Proof.
  destruct (gpsOdom_new quadName ps_noise m0) as [node|what|] eqn:Hnew;
    [| vm_compute in Hnew; discriminate ..].
  exists node. split; [reflexivity|].
  rewrite (noise_variances quadName ps_noise m0 node Hnew).
  vm_compute. repeat split; reflexivity.
Defined.

(** C8, as stated, fails: the transform is asked for and no child frame
    identifier is provided, yet the constructor builds the node (with the
    child frame "base_link") and the process exits with code 0. *)
Lemma missing_child_frame_id_defaults :
  ps_tf_only !! "/gps_odom/publish_tf" = Some (XBool true) /\
  ps_tf_only !! "/gps_odom/child_frame_id" = None /\
  gpsOdom_new quadName ps_tf_only m0 = Constructed default_node /\
  fst (main quadName ps_tf_only m0 [m0; m1]) = Exit 0 /\
  fst (main quadName ps_tf_only m0 [m0; m1]) <> Exit 1.
Proof.
  repeat split; try (vm_compute; reflexivity).
  vm_compute. discriminate.
Qed.

(** The amended C8 on the two sample parameter servers. *)
Lemma startup_exit_code_witness :
  fst (main quadName ps_empty_child m0 [m0; m1]) = Exit 1 /\
  fst (main quadName ps_tf_only m0 [m0; m1]) <> Exit 1.
Proof.
  pose proof (startup_exit_code quadName ps_empty_child m0 [m0; m1]) as He.
  pose proof (startup_exit_code quadName ps_tf_only m0 [m0; m1]) as Ht.
  cbv zeta in He, Ht.
  destruct He as (He & _ & _). destruct Ht as (_ & _ & Ht).
  split.
  - rewrite He. vm_compute. reflexivity.
  - apply Ht. vm_compute. reflexivity.
Defined.

(** X7 on the sample stream: [m2] repeats the stamp of [m1]. *)
Lemma repeated_stamp_witness :
  process_updates (snd (cycle m2 (fst (cycle m1 world1)))) = [ 0%float ] /\
  measurement_updates (snd (cycle m2 (fst (cycle m1 world1)))) =
    [ (measurement_of m2, 0%float) ] /\
  Odometry.angular <$> odom_published (snd (cycle m2 (fst (cycle m1 world1)))) =
    [ Vector3.mk 0 0 0 ].
Proof. apply (repeated_stamp_zero_step m1 m2 world1). reflexivity. Defined.

(** X8 on a start-up that succeeds: both messages are relayed. *)
Lemma main_relays_witness :
  concat (mocap_published <$> snd (main quadName ps_tf_only m0 [m0; m1])) =
    [ relay_of m0; relay_of m1 ] /\
  length (snd (main quadName ps_tf_only m0 [m0; m1])) = 2.
Proof.
  apply (main_relays_every_message quadName ps_tf_only m0 [m0; m1]).
  vm_compute. reflexivity.
Defined.
